(** * Bake and export: a Blender add-on, embedded and verified

    Source: [src/res/bake_and_export.py].

    The add-on is a thin adapter over the host application (Blender's
    [bpy] module): every statement of the script is a call into the host.
    The development therefore has three layers:

    - [Bpy]: the part of the host state the script reads or writes
      (collections, selection, active object, baked vertex colours,
      exported files, registered classes, the object menu, stdout);
    - a small state-and-exception monad [M] in which each host call
      records an [event] (the call together with the selection and the
      active object at the moment of the call), so that statements about
      the order of host calls can be made;
    - the script itself ([execute], [bake_lighting], [export_obj],
      [menu_func], [register], [unregister]), translated line by line.

    What the host does inside an operator is not in the repository.  The
    two Python library functions the script calls ([str.lower] and the
    platform's [os.path.join]) and the question whether a host call
    of [execute] raises (deselect-all when its poll fails, [select_set]
    or the assignment of the active object for an object outside the
    view layer, the bake, the export) are gathered in a [Runtime] record
    over which every theorem is universally quantified.  The registration
    calls are taken to succeed. *)

From Stdlib Require Import Ascii String.
From stdpp Require Import gmap strings list.

Open Scope string_scope.
Open Scope list_scope.

(** ** Host data *)

(** A scene object: Blender identifies an object by its datablock; the
    script reads only its [name]. *)
Record Object := { ob_id : positive; ob_name : string }.

#[global] Instance Object_eq_dec : EqDecision Object.
Proof. solve_decision. Defined.

#[global] Instance Object_countable : Countable Object :=
  inj_countable' (λ o, (ob_id o, ob_name o))
                 (λ p, {| ob_id := p.1; ob_name := p.2 |})
                 (λ o, match o with Build_Object _ _ => eq_refl end).

(** A Python exception, by class name and message. *)
Record exn := { exn_class : string; exn_msg : string }.

(** [action] of [bpy.ops.object.select_all]. *)
Inductive select_action := TOGGLE | SELECT | DESELECT | INVERT.

(** [type] and [target] of [bpy.ops.object.bake]. *)
Inductive bake_type :=
  COMBINED | AO | SHADOW | POSITION | NORMAL | UV | ROUGHNESS | EMIT
| ENVIRONMENT | DIFFUSE | GLOSSY | TRANSMISSION.

Inductive bake_target := IMAGE_TEXTURES | VERTEX_COLORS.

(** Keyword arguments of [bpy.ops.wm.obj_export], as the script passes
    them. *)
Record export_args := {
  filepath : string;
  check_existing : bool;
  export_selected_objects : bool;
  export_colors : bool;
  export_materials : bool;
  export_triangulated_mesh : bool;
  filter_glob : string
}.

(** A menu layout is the list of operator identifiers it shows; a draw
    function extends a layout. *)
Definition layout := list string.
Definition draw_func := layout → layout.

(** The class attributes of an operator. *)
Record operator_class := {
  bl_idname : string;
  bl_label : string;
  bl_options : list string
}.

(** The host state. *)
Record Bpy := {
  (** [bpy.data.collections]: name to the collection's objects, in
      iteration order *)
  data_collections : gmap string (list Object);
  (** the selected objects of the view layer *)
  selected : gset Object;
  (** [bpy.context.view_layer.objects.active] *)
  active : option Object;
  (** objects that carry baked vertex colours *)
  vertex_colors : gset Object;
  (** mesh files written by the exporter, with the objects in each *)
  files : gmap string (gset Object);
  (** operator classes registered with the host, by [bl_idname] *)
  classes : gmap string operator_class;
  (** the draw functions of [bpy.types.VIEW3D_MT_object] *)
  VIEW3D_MT_object : list draw_func;
  (** lines printed to standard output *)
  stdout : list string
}.

Definition set_selected (s : gset Object) (h : Bpy) : Bpy :=
  {| data_collections := data_collections h; selected := s;
     active := active h; vertex_colors := vertex_colors h;
     files := files h; classes := classes h;
     VIEW3D_MT_object := VIEW3D_MT_object h; stdout := stdout h |}.

Definition set_active (a : option Object) (h : Bpy) : Bpy :=
  {| data_collections := data_collections h; selected := selected h;
     active := a; vertex_colors := vertex_colors h;
     files := files h; classes := classes h;
     VIEW3D_MT_object := VIEW3D_MT_object h; stdout := stdout h |}.

Definition set_vertex_colors (v : gset Object) (h : Bpy) : Bpy :=
  {| data_collections := data_collections h; selected := selected h;
     active := active h; vertex_colors := v;
     files := files h; classes := classes h;
     VIEW3D_MT_object := VIEW3D_MT_object h; stdout := stdout h |}.

Definition set_files (f : gmap string (gset Object)) (h : Bpy) : Bpy :=
  {| data_collections := data_collections h; selected := selected h;
     active := active h; vertex_colors := vertex_colors h;
     files := f; classes := classes h;
     VIEW3D_MT_object := VIEW3D_MT_object h; stdout := stdout h |}.

Definition set_classes (c : gmap string operator_class) (h : Bpy) : Bpy :=
  {| data_collections := data_collections h; selected := selected h;
     active := active h; vertex_colors := vertex_colors h;
     files := files h; classes := c;
     VIEW3D_MT_object := VIEW3D_MT_object h; stdout := stdout h |}.

Definition set_VIEW3D_MT_object (m : list draw_func) (h : Bpy) : Bpy :=
  {| data_collections := data_collections h; selected := selected h;
     active := active h; vertex_colors := vertex_colors h;
     files := files h; classes := classes h;
     VIEW3D_MT_object := m; stdout := stdout h |}.

Definition set_stdout (out : list string) (h : Bpy) : Bpy :=
  {| data_collections := data_collections h; selected := selected h;
     active := active h; vertex_colors := vertex_colors h;
     files := files h; classes := classes h;
     VIEW3D_MT_object := VIEW3D_MT_object h; stdout := out |}.

(** Every object of the scene: the members of all collections. *)
Definition all_objects (h : Bpy) : gset Object :=
  map_fold (λ _ objs acc, list_to_set objs ∪ acc) ∅ (data_collections h).

(** ** Host calls and their trace *)

Inductive call :=
| Op_select_all (action : select_action)
| Ob_select_set (o : Object) (state : bool)
| Set_active (o : Object)
| Op_bake (type : bake_type) (target : bake_target)
| Op_obj_export (a : export_args).

(** A host call, with the selection and the active object it found. *)
Record event := {
  ev_call : call;
  ev_selected : gset Object;
  ev_active : option Object
}.

(** A trace pairs every call with the exception it raised, if any. *)
Abbreviation trace := (list (event * option exn)).

Definition is_bake (ev : event) : bool :=
  match ev_call ev with Op_bake _ _ => true | _ => false end.

Definition is_export (ev : event) : bool :=
  match ev_call ev with Op_obj_export _ => true | _ => false end.

(** The calls of a trace, in order. *)
Definition calls_of (tr : trace) : list call := (λ p, ev_call p.1) <$> tr.

(** The bake and export calls of a trace, in order. *)
Definition ops_of (tr : trace) : list event :=
  filter (λ ev, is_bake ev || is_export ev) tr.*1.

(** ** The monad of scripts *)

Inductive outcome (A : Type) :=
| Returned (a : A)
| Raised (e : exn).
Arguments Returned {A} a.
Arguments Raised {A} e.

Record result (A : Type) := Result {
  res_outcome : outcome A;
  res_state : Bpy;
  res_trace : trace
}.
Arguments Result {A} _ _ _.
Arguments res_outcome {A} _.
Arguments res_state {A} _.
Arguments res_trace {A} _.

Definition M (A : Type) : Type := Bpy → result A.

Definition ret {A} (a : A) : M A := λ h, Result (Returned a) h [].

Definition bind {A B} (m : M A) (k : A → M B) : M B := λ h,
  let r := m h in
  match res_outcome r with
  | Returned a =>
      let r' := k a (res_state r) in
      Result (res_outcome r') (res_state r') (res_trace r ++ res_trace r')
  | Raised e => Result (Raised e) (res_state r) (res_trace r)
  end.

#[global] Instance M_ret : MRet M := @ret.
#[global] Instance M_bind : MBind M := λ A B k m, bind m k.

(** [for x in l: body x] *)
Fixpoint for_each {A} (l : list A) (body : A → M unit) : M unit :=
  match l with
  | [] => ret tt
  | x :: l' => body x;; for_each l' body
  end.

(** The event of a call made in state [h]. *)
Definition snapshot (c : call) (h : Bpy) : event :=
  {| ev_call := c; ev_selected := selected h; ev_active := active h |}.

(** A host call, which may raise: when it does, the state is left as it
    was; otherwise its effect is applied.  Either way it is recorded. *)
Definition host_op (c : call) (error : option exn) (effect : Bpy → Bpy)
  : M unit := λ h,
  match error with
  | Some e => Result (Raised e) h [(snapshot c h, Some e)]
  | None => Result (Returned tt) (effect h) [(snapshot c h, None)]
  end.

(** ** The Python runtime and the host's operators

    [str_lower] is [str.lower] and [os_path_join] is the two-argument
    [os.path.join] of the platform the host runs on.  The [_error] fields
    say whether [bpy.ops.object.select_all], [obj.select_set], the
    assignment to [view_layer.objects.active], [bpy.ops.object.bake] and
    [bpy.ops.wm.obj_export] raise in a given host state, and with which
    exception. *)
Record Runtime := {
  str_lower : string → string;
  os_path_join : string → string → string;
  select_all_error : select_action → Bpy → option exn;
  select_set_error : Object → bool → Bpy → option exn;
  active_set_error : Object → Bpy → option exn;
  bake_error : bake_type → bake_target → Bpy → option exn;
  export_error : export_args → Bpy → option exn
}.

(** The objects a mesh export writes. *)
Definition exported_objects (a : export_args) (h : Bpy) : gset Object :=
  if export_selected_objects a then selected h else all_objects h.

Module bpy.

(** [bpy.data.collections.get(name)] *)
Definition data_collections_get (name : string) : M (option (list Object)) :=
  λ h, Result (Returned (data_collections h !! name)) h [].

(** [bpy.ops.object.select_all(action=...)]; the operator raises when
    its poll fails. *)
Definition ops_object_select_all (rt : Runtime) (action : select_action)
  : M unit := λ h,
  host_op (Op_select_all action) (select_all_error rt action h) (λ h,
    match action with
    | DESELECT => set_selected ∅ h
    | SELECT => set_selected (all_objects h) h
    | INVERT => set_selected (all_objects h ∖ selected h) h
    | TOGGLE =>
        if decide (selected h = ∅) then set_selected (all_objects h) h
        else set_selected ∅ h
    end) h.

(** [obj.select_set(state)]; the call raises for an object that is not
    in the view layer. *)
Definition select_set (rt : Runtime) (obj : Object) (state : bool)
  : M unit := λ h,
  host_op (Ob_select_set obj state) (select_set_error rt obj state h) (λ h,
    if state then set_selected ({[obj]} ∪ selected h) h
    else set_selected (selected h ∖ {[obj]}) h) h.

(** [bpy.context.view_layer.objects.active = obj] *)
Definition context_view_layer_objects_active_set (rt : Runtime)
  (obj : Object) : M unit := λ h,
  host_op (Set_active obj) (active_set_error rt obj h)
    (set_active (Some obj)) h.

(** [bpy.utils.register_class(cls)] *)
Definition utils_register_class (cls : operator_class) : M unit :=
  λ h, Result (Returned tt)
              (set_classes (<[bl_idname cls := cls]> (classes h)) h) [].

(** [bpy.utils.unregister_class(cls)] *)
Definition utils_unregister_class (cls : operator_class) : M unit :=
  λ h, Result (Returned tt)
              (set_classes (delete (bl_idname cls) (classes h)) h) [].

(** [bpy.types.VIEW3D_MT_object.append(draw_func)] *)
Definition types_VIEW3D_MT_object_append (f : draw_func) : M unit :=
  λ h, Result (Returned tt)
              (set_VIEW3D_MT_object (VIEW3D_MT_object h ++ [f]) h) [].

(** What the menu shows: every draw function applied in turn. *)
Definition menu_draw (fs : list draw_func) : layout :=
  foldl (λ l f, f l) [] fs.

End bpy.

(** [print(msg)] *)
Definition print (msg : string) : M unit :=
  λ h, Result (Returned tt) (set_stdout (stdout h ++ [msg]) h) [].

(** What [execute] hands back: [None] or a set of status strings. *)
Inductive pyval :=
| PyNone
| PySet (s : gset string).

(** ** The script *)

(** Class attributes of [BakeAndExport]. *)
Definition BakeAndExport : operator_class :=
  {| bl_idname := "object.bake_and_export";
     bl_label := "Bake and Export";
     bl_options := ["REGISTER"] |}.

(** The two local constants of [execute]. *)
Definition collection_name : string := "Collection".
Definition output_directory : string :=
  "C:/dev/rust/rust development/wgpu/New folder/cityscaper/res".

Section Script.

Variable rt : Runtime.

(** [bpy.ops.object.bake(type=..., target=...)]: the selected objects
    receive vertex colours when the target is [VERTEX_COLORS]. *)
Definition ops_object_bake (type : bake_type) (target : bake_target)
  : M unit := λ h,
  host_op (Op_bake type target) (bake_error rt type target h)
    (λ h, match target with
          | VERTEX_COLORS => set_vertex_colors (selected h ∪ vertex_colors h) h
          | IMAGE_TEXTURES => h
          end) h.

(** [bpy.ops.wm.obj_export(...)]: the file at [filepath] is written
    (over an existing one, if any). *)
Definition ops_wm_obj_export (a : export_args) : M unit := λ h,
  host_op (Op_obj_export a) (export_error rt a h)
    (λ h, set_files (<[filepath a := exported_objects a h]> (files h)) h) h.

Definition bake_lighting (obj : Object) : M unit :=
  bpy.context_view_layer_objects_active_set rt obj;;
  bpy.ops_object_select_all rt DESELECT;;
  bpy.select_set rt obj true;;
  ops_object_bake DIFFUSE VERTEX_COLORS.

(** The arguments [export_obj] passes for a given [filepath]. *)
Definition obj_export_args (path : string) : export_args :=
  {| filepath := path;
     check_existing := false;
     export_selected_objects := true;
     export_colors := true;
     export_materials := false;
     export_triangulated_mesh := true;
     filter_glob := "*.obj;" |}.

Definition export_obj (obj : Object) (path : string) : M unit :=
  ops_wm_obj_export (obj_export_args path).

(** The body of the loop of [execute]. *)
Definition execute_body (obj : Object) : M unit :=
  bpy.select_set rt obj true;;
  bake_lighting obj;;
  let obj_name := str_lower rt (ob_name obj) in
  let filepath := os_path_join rt output_directory (obj_name +:+ ".obj") in
  export_obj obj filepath;;
  bpy.select_set rt obj false.

Definition execute : M pyval :=
  collection ← bpy.data_collections_get collection_name;
  match collection with
  | None =>
      print "Collection not found.";;
      mret PyNone
  | Some objects =>
      bpy.ops_object_select_all rt DESELECT;;
      for_each objects execute_body;;
      mret (PySet {["FINISHED"]})
  end.

Definition menu_func : draw_func :=
  λ layout, layout ++ [bl_idname BakeAndExport].

Definition register : M unit :=
  bpy.utils_register_class BakeAndExport;;
  bpy.types_VIEW3D_MT_object_append menu_func.

Definition unregister : M unit :=
  bpy.utils_unregister_class BakeAndExport.

End Script.

(** ** What a run is expected to show *)

Section Expected.

Variable rt : Runtime.

(** The path [execute] computes for an object. *)
Definition export_path (o : Object) : string :=
  os_path_join rt output_directory (str_lower rt (ob_name o) +:+ ".obj").

(** The bake call for [o]: diffuse into vertex colours, with [o] active
    and nothing but [o] selected. *)
Definition bake_event (o : Object) : event :=
  {| ev_call := Op_bake DIFFUSE VERTEX_COLORS;
     ev_selected := {[o]};
     ev_active := Some o |}.

(** The export call for [o]. *)
Definition export_event (o : Object) : event :=
  {| ev_call := Op_obj_export (obj_export_args (export_path o));
     ev_selected := {[o]};
     ev_active := Some o |}.

(** One bake and then one export per object, in the order of the
    collection. *)
Definition expected_ops (objs : list Object) : list event :=
  o ← objs; [bake_event o; export_event o].

(** The host calls of one pass of the loop, in order. *)
Definition body_calls (o : Object) : list call :=
  [ Ob_select_set o true;
    Set_active o;
    Op_select_all DESELECT;
    Ob_select_set o true;
    Op_bake DIFFUSE VERTEX_COLORS;
    Op_obj_export (obj_export_args (export_path o));
    Ob_select_set o false ].

(** The host calls of a whole run over [objs]: deselect everything,
    then one pass per object. *)
Definition expected_calls (objs : list Object) : list call :=
  Op_select_all DESELECT :: (o ← objs; body_calls o).

(** The objects [execute] iterates over: those of the named collection,
    none when there is no such collection. *)
Definition collection_objects (h : Bpy) : list Object :=
  default [] (data_collections h !! collection_name).

(** The reading of "every object of the collection is baked and then
    exported, one export call per object". *)
Definition bakes_and_exports_each (h : Bpy) : Prop :=
  ∀ objs, data_collections h !! collection_name = Some objs →
    ops_of (res_trace (execute rt h)) = expected_ops objs.

(** The reading of "whenever the collection exists, [execute] returns
    [{'FINISHED'}]". *)
Definition finishes_when_found (h : Bpy) : Prop :=
  is_Some (data_collections h !! collection_name) →
  res_outcome (execute rt h) = Returned (PySet {["FINISHED"]}).

End Expected.

(** The exceptions raised by the calls of a trace. *)
Definition raised (tr : trace) : list exn := omap snd tr.

(** No call of the trace raised. *)
Definition no_error_raised (tr : trace) : Prop :=
  Forall (λ p, p.2 = None) tr.

(** The exception discipline of the monad: a run that returns has raised
    nothing; a run that raises [e] ends with the call that raised [e], made
    in the very state the run ends in, and no earlier call raised. *)
Definition well_raised {A} (r : result A) : Prop :=
  match res_outcome r with
  | Returned _ => no_error_raised (res_trace r)
  | Raised e =>
      ∃ tr c, res_trace r = tr ++ [(snapshot c (res_state r), Some e)]
              ∧ no_error_raised tr
  end.

(** ** A concrete runtime and concrete scenes *)

Module Posix.

(** [str.lower] on ASCII letters; other bytes are kept. *)
Definition ascii_lower (c : ascii) : ascii :=
  let n := Ascii.N_of_ascii c in
  if (65 <=? n)%N && (n <=? 90)%N then Ascii.ascii_of_N (n + 32) else c.

Fixpoint lower (s : string) : string :=
  match s with
  | EmptyString => EmptyString
  | String c s' => String (ascii_lower c) (lower s')
  end.

Fixpoint ends_with_sep (s : string) : bool :=
  match s with
  | EmptyString => false
  | String c EmptyString => bool_decide (c = "/"%char)
  | String _ s' => ends_with_sep s'
  end.

(** [posixpath.join(a, b)] *)
Definition join (a b : string) : string :=
  if String.prefix "/" b then b
  else if bool_decide (a = "") || ends_with_sep a then a +:+ b
  else a +:+ "/" +:+ b.

(** A host whose calls never raise. *)
Definition runtime : Runtime :=
  {| str_lower := lower;
     os_path_join := join;
     select_all_error := λ _ _, None;
     select_set_error := λ _ _ _, None;
     active_set_error := λ _ _, None;
     bake_error := λ _ _ _, None;
     export_error := λ _ _, None |}.

Definition no_mesh : exn :=
  {| exn_class := "RuntimeError";
     exn_msg := "Object is not a mesh" |}.

(** A host whose bake operator raises when the active object is called
    "Camera". *)
Definition strict_runtime : Runtime :=
  {| str_lower := lower;
     os_path_join := join;
     select_all_error := λ _ _, None;
     select_set_error := λ _ _ _, None;
     active_set_error := λ _ _, None;
     bake_error := λ _ _ h,
       if bool_decide (ob_name <$> active h = Some "Camera")
       then Some no_mesh else None;
     export_error := λ _ _, None |}.

Definition poll_failed : exn :=
  {| exn_class := "RuntimeError";
     exn_msg := "Operator bpy.ops.object.select_all.poll() failed" |}.

(** A host in a mode in which the poll of deselect-all fails. *)
Definition edit_mode_runtime : Runtime :=
  {| str_lower := lower;
     os_path_join := join;
     select_all_error := λ _ _, Some poll_failed;
     select_set_error := λ _ _ _, None;
     active_set_error := λ _ _, None;
     bake_error := λ _ _ _, None;
     export_error := λ _ _, None |}.

Definition not_in_view_layer : exn :=
  {| exn_class := "RuntimeError";
     exn_msg := "Object can't be selected because it is not in the View Layer" |}.

(** A host in which the object called "Cube" is outside the view
    layer. *)
Definition excluded_runtime : Runtime :=
  {| str_lower := lower;
     os_path_join := join;
     select_all_error := λ _ _, None;
     select_set_error := λ o state _,
       if state && bool_decide (ob_name o = "Cube")
       then Some not_in_view_layer else None;
     active_set_error := λ _ _, None;
     bake_error := λ _ _ _, None;
     export_error := λ _ _, None |}.

End Posix.

Module Scenes.

Definition camera : Object := {| ob_id := 1; ob_name := "Camera" |}.
Definition cube : Object := {| ob_id := 2; ob_name := "Cube" |}.
Definition light : Object := {| ob_id := 3; ob_name := "Light" |}.

(** A scene with one collection, named "Collection", that holds a
    camera, a cube and a light, in this order; the cube is selected and
    active. *)
Definition startup : Bpy :=
  {| data_collections := {[ "Collection" := [camera; cube; light] ]};
     selected := {[cube]};
     active := Some cube;
     vertex_colors := ∅;
     files := ∅;
     classes := ∅;
     VIEW3D_MT_object := [];
     stdout := [] |}.

(** A scene whose only collection has another name. *)
Definition renamed : Bpy :=
  {| data_collections := {[ "Props" := [cube] ]};
     selected := {[cube]};
     active := Some cube;
     vertex_colors := ∅;
     files := ∅;
     classes := ∅;
     VIEW3D_MT_object := [];
     stdout := [] |}.

(** A scene whose collection is empty. *)
Definition bare : Bpy :=
  {| data_collections := {[ "Collection" := [] ]};
     selected := ∅;
     active := None;
     vertex_colors := ∅;
     files := ∅;
     classes := ∅;
     VIEW3D_MT_object := [];
     stdout := [] |}.

End Scenes.

(** ** Completed passes, and repeated registration *)

Section Passes.

Variable rt : Runtime.

(** The state a completed pass of the loop over [o] leaves behind: [o] is
    the active object, it carries vertex colours, its file is written, and
    nothing is selected. *)
Definition pass (h : Bpy) (o : Object) : Bpy :=
  set_selected ∅
    (set_files (<[export_path rt o := {[o]}]> (files h))
       (set_vertex_colors ({[o]} ∪ vertex_colors h)
          (set_active (Some o) h))).

(** The last object of [objs] that is exported to [path]. *)
Definition last_exported_to (path : string) (objs : list Object)
  : option Object :=
  last (filter (λ o, export_path rt o = path) objs).


End Passes.


Module Twins.

Definition upper : Object := {| ob_id := 5; ob_name := "Wall" |}.
Definition lower : Object := {| ob_id := 6; ob_name := "wall" |}.
Definition lamp : Object := {| ob_id := 7; ob_name := "Lamp" |}.

(** A scene whose collection holds two objects whose names differ in case
    only; a lamp in another collection is selected and active. *)
Definition scene : Bpy :=
  {| data_collections :=
       {[ "Collection" := [upper; lower]; "Lights" := [lamp] ]};
     selected := {[lamp]};
     active := Some lamp;
     vertex_colors := ∅;
     files := ∅;
     classes := ∅;
     VIEW3D_MT_object := [];
     stdout := [] |}.

End Twins.

(** * Properties *)

Example posix_join_relative :
  Posix.join "C:/out" "cube.obj" = "C:/out/cube.obj".
Proof. reflexivity. Qed.

Example posix_lower_cube : Posix.lower "Cube.001" = "cube.001".
Proof. reflexivity. Qed.

Example startup_run_outcome :
  res_outcome (execute Posix.runtime Scenes.startup)
  = Returned (PySet {["FINISHED"]}).
Proof. reflexivity. Qed.

Example startup_run_ops :
  ops_of (res_trace (execute Posix.runtime Scenes.startup))
  = expected_ops Posix.runtime [Scenes.camera; Scenes.cube; Scenes.light].
Proof. reflexivity. Qed.

Example startup_strict_outcome :
  res_outcome (execute Posix.strict_runtime Scenes.startup)
  = Raised Posix.no_mesh.
Proof. reflexivity. Qed.

(** ** The monad *)

Section Monad.

Context {A B : Type}.

Lemma bind_returned (m : M A) (k : A → M B) h a :
  res_outcome (m h) = Returned a →
  (m ≫= k) h =
    Result (res_outcome (k a (res_state (m h))))
           (res_state (k a (res_state (m h))))
           (res_trace (m h) ++ res_trace (k a (res_state (m h)))).
Proof.
  intros Hm. unfold mbind, M_bind, bind. now rewrite Hm.
Qed.

Lemma bind_raised (m : M A) (k : A → M B) h e :
  res_outcome (m h) = Raised e →
  (m ≫= k) h = Result (Raised e) (res_state (m h)) (res_trace (m h)).
Proof.
  intros Hm. unfold mbind, M_bind, bind. now rewrite Hm.
Qed.

Lemma well_raised_bind (m : M A) (k : A → M B) h :
  well_raised (m h) →
  (∀ a h', well_raised (k a h')) →
  well_raised ((m ≫= k) h).
Proof.
  intros Hm Hk. unfold well_raised in Hm.
  destruct (res_outcome (m h)) as [a|e] eqn:Ho.
  - rewrite (bind_returned _ _ _ _ Ho). specialize (Hk a (res_state (m h))).
    unfold well_raised in *. simpl.
    destruct (res_outcome (k a (res_state (m h)))) as [b|e].
    + now apply Forall_app.
    + destruct Hk as (tr & c & -> & Htr).
      exists (res_trace (m h) ++ tr), c. split.
      * now rewrite app_assoc.
      * now apply Forall_app.
  - rewrite (bind_raised _ _ _ _ Ho). unfold well_raised. simpl. exact Hm.
Qed.

End Monad.

Lemma well_raised_quiet {A} (r : result A) a :
  res_outcome r = Returned a → res_trace r = [] → well_raised r.
Proof.
  intros Ho Ht. unfold well_raised. rewrite Ho, Ht. constructor.
Qed.

Lemma well_raised_host_op c error effect h :
  well_raised (host_op c error effect h).
Proof.
  unfold host_op. destruct error as [e|].
  - eexists [], _. split; [reflexivity | constructor].
  - repeat constructor.
Qed.

Lemma well_raised_for_each {A} (body : A → M unit) l :
  (∀ x h, well_raised (body x h)) → ∀ h, well_raised (for_each l body h).
Proof.
  intros Hbody. induction l as [|x l IH]; intros h; simpl.
  - constructor.
  - apply well_raised_bind; auto.
Qed.

Create HintDb raised discriminated.
#[global] Hint Resolve well_raised_host_op : raised.
#[global] Hint Extern 1 (well_raised (mbind _ _ _)) =>
  apply well_raised_bind; [| intros ? ?] : raised.
#[global] Hint Extern 1 (well_raised (mret _ _)) => constructor : raised.

Lemma well_raised_execute_body rt o h : well_raised (execute_body rt o h).
Proof.
  unfold execute_body, bake_lighting, export_obj, bpy.select_set,
    bpy.context_view_layer_objects_active_set, bpy.ops_object_select_all,
    ops_object_bake, ops_wm_obj_export.
  auto 20 with raised.
Qed.

Lemma well_raised_execute rt h : well_raised (execute rt h).
Proof.
  unfold execute. apply well_raised_bind.
  - now apply (well_raised_quiet _ (data_collections h !! collection_name)).
  - intros [objs|] h'.
    + apply well_raised_bind; [apply well_raised_host_op|]. intros _ h1.
      apply well_raised_bind.
      * apply well_raised_for_each, well_raised_execute_body.
      * intros; constructor.
    + apply well_raised_bind; [now apply (well_raised_quiet _ tt)|].
      intros; constructor.
Qed.

Lemma raised_nil (tr : trace) : raised tr = [] ↔ no_error_raised tr.
Proof.
  unfold raised, no_error_raised. induction tr as [|[ev [e|]] tr IH]; simpl.
  - split; [constructor | done].
  - split; [done|]. intros Hno. apply Forall_cons in Hno as [? _]. done.
  - rewrite IH. split.
    + now constructor.
    + intros Hno. now apply Forall_cons in Hno as [_ ?].
Qed.

(** A run that raised nothing returned. *)
Lemma well_raised_returns {A} (r : result A) :
  well_raised r → no_error_raised (res_trace r) →
  ∃ a, res_outcome r = Returned a.
Proof.
  unfold well_raised. destruct (res_outcome r) as [a|e]; [eauto|].
  intros (tr & c & -> & _) Hno.
  apply Forall_app in Hno as [_ Hlast].
  apply Forall_cons in Hlast as [Hlast _]. discriminate.
Qed.

(** A call that raised is the last call, its exception is the outcome,
    and the run ends in the state the call was made in. *)
Lemma well_raised_last {A} (r : result A) i ev e :
  well_raised r → res_trace r !! i = Some (ev, Some e) →
  res_outcome r = Raised e ∧ length (res_trace r) = S i
  ∧ ∃ c, ev = snapshot c (res_state r).
Proof.
  unfold well_raised. intros Hr Hi.
  destruct (res_outcome r) as [a|e'].
  - eapply Forall_lookup_1 in Hr; [|exact Hi]. discriminate.
  - destruct Hr as (tr & c & Htr & Hno). rewrite Htr in Hi |- *.
    destruct (decide (i < length tr)) as [Hlt|Hge].
    + rewrite lookup_app_l in Hi by done.
      eapply Forall_lookup_1 in Hno; [|exact Hi]. discriminate.
    + rewrite lookup_app_r in Hi by lia.
      destruct (i - length tr) as [|n] eqn:Hn; simpl in Hi; [|done].
      injection Hi as <- <-. rewrite length_app. simpl.
      split; [done|]. split; [lia | by exists c].
Qed.

Lemma bind_assoc {A B C} (m : M A) (k : A → M B) (k' : B → M C) h :
  ((m ≫= k) ≫= k') h = (m ≫= λ a, k a ≫= k') h.
Proof.
  unfold mbind, M_bind, bind.
  destruct (res_outcome (m h)) as [a|e]; cbn [res_outcome res_state res_trace];
    [|done].
  destruct (res_outcome (k a (res_state (m h)))) as [b|e];
    cbn [res_outcome res_state res_trace]; [|done].
  now rewrite app_assoc.
Qed.

(** ** Host calls in front of the rest of a script *)

Section Steps.

Variable rt : Runtime.
Context {B : Type}.

Lemma select_set_bind o state (k : unit → M B) h :
  (bpy.select_set rt o state ≫= k) h
  = match select_set_error rt o state h with
    | Some e => Result (Raised e) h [(snapshot (Ob_select_set o state) h, Some e)]
    | None =>
        let h' := if state then set_selected ({[o]} ∪ selected h) h
                  else set_selected (selected h ∖ {[o]}) h in
        Result (res_outcome (k tt h')) (res_state (k tt h'))
               ((snapshot (Ob_select_set o state) h, None) :: res_trace (k tt h'))
    end.
Proof.
  unfold mbind, M_bind, bind, bpy.select_set, host_op.
  now destruct (select_set_error rt o state h).
Qed.

Lemma deselect_all_bind (k : unit → M B) h :
  (bpy.ops_object_select_all rt DESELECT ≫= k) h
  = match select_all_error rt DESELECT h with
    | Some e =>
        Result (Raised e) h [(snapshot (Op_select_all DESELECT) h, Some e)]
    | None =>
        let h' := set_selected ∅ h in
        Result (res_outcome (k tt h')) (res_state (k tt h'))
               ((snapshot (Op_select_all DESELECT) h, None) :: res_trace (k tt h'))
    end.
Proof.
  unfold mbind, M_bind, bind, bpy.ops_object_select_all, host_op.
  now destruct (select_all_error rt DESELECT h).
Qed.

Lemma active_set_bind o (k : unit → M B) h :
  (bpy.context_view_layer_objects_active_set rt o ≫= k) h
  = match active_set_error rt o h with
    | Some e => Result (Raised e) h [(snapshot (Set_active o) h, Some e)]
    | None =>
        let h' := set_active (Some o) h in
        Result (res_outcome (k tt h')) (res_state (k tt h'))
               ((snapshot (Set_active o) h, None) :: res_trace (k tt h'))
    end.
Proof.
  unfold mbind, M_bind, bind, bpy.context_view_layer_objects_active_set,
    host_op.
  now destruct (active_set_error rt o h).
Qed.

Lemma bake_bind type (k : unit → M B) h :
  (ops_object_bake rt type VERTEX_COLORS ≫= k) h
  = match bake_error rt type VERTEX_COLORS h with
    | Some e =>
        Result (Raised e) h [(snapshot (Op_bake type VERTEX_COLORS) h, Some e)]
    | None =>
        let h' := set_vertex_colors (selected h ∪ vertex_colors h) h in
        Result (res_outcome (k tt h')) (res_state (k tt h'))
               ((snapshot (Op_bake type VERTEX_COLORS) h, None)
                  :: res_trace (k tt h'))
    end.
Proof.
  unfold mbind, M_bind, bind, ops_object_bake, host_op.
  now destruct (bake_error rt type VERTEX_COLORS h).
Qed.

Lemma export_bind a (k : unit → M B) h :
  (ops_wm_obj_export rt a ≫= k) h
  = match export_error rt a h with
    | Some e => Result (Raised e) h [(snapshot (Op_obj_export a) h, Some e)]
    | None =>
        let h' := set_files (<[filepath a := exported_objects a h]> (files h)) h in
        Result (res_outcome (k tt h')) (res_state (k tt h'))
               ((snapshot (Op_obj_export a) h, None) :: res_trace (k tt h'))
    end.
Proof.
  unfold mbind, M_bind, bind, ops_wm_obj_export, host_op.
  now destruct (export_error rt a h).
Qed.

End Steps.

(** ** The decision tree of one pass *)

Section Tree.
Variable rt : Runtime.

Lemma execute_body_tree o h :
  execute_body rt o h =
    let h1 := set_selected ({[o]} ∪ selected h) h in
    let h2 := set_active (Some o) h1 in
    let h3 := set_selected ∅ h2 in
    let h4 := set_selected ({[o]} ∪ selected h3) h3 in
    let h5 := set_vertex_colors (selected h4 ∪ vertex_colors h4) h4 in
    let a := obj_export_args (export_path rt o) in
    let h6 := set_files (<[filepath a := exported_objects a h5]> (files h5)) h5 in
    let h7 := set_selected (selected h6 ∖ {[o]}) h6 in
    let c1 := snapshot (Ob_select_set o true) h in
    let c2 := snapshot (Set_active o) h1 in
    let c3 := snapshot (Op_select_all DESELECT) h2 in
    let c4 := snapshot (Ob_select_set o true) h3 in
    let c5 := snapshot (Op_bake DIFFUSE VERTEX_COLORS) h4 in
    let c6 := snapshot (Op_obj_export a) h5 in
    let c7 := snapshot (Ob_select_set o false) h6 in
    match select_set_error rt o true h with
    | Some e => Result (Raised e) h [(c1, Some e)]
    | None =>
    match active_set_error rt o h1 with
    | Some e => Result (Raised e) h1 [(c1, None); (c2, Some e)]
    | None =>
    match select_all_error rt DESELECT h2 with
    | Some e => Result (Raised e) h2 [(c1, None); (c2, None); (c3, Some e)]
    | None =>
    match select_set_error rt o true h3 with
    | Some e =>
        Result (Raised e) h3 [(c1, None); (c2, None); (c3, None); (c4, Some e)]
    | None =>
    match bake_error rt DIFFUSE VERTEX_COLORS h4 with
    | Some e =>
        Result (Raised e) h4
          [(c1, None); (c2, None); (c3, None); (c4, None); (c5, Some e)]
    | None =>
    match export_error rt a h5 with
    | Some e =>
        Result (Raised e) h5
          [(c1, None); (c2, None); (c3, None); (c4, None); (c5, None);
           (c6, Some e)]
    | None =>
    match select_set_error rt o false h6 with
    | Some e =>
        Result (Raised e) h6
          [(c1, None); (c2, None); (c3, None); (c4, None); (c5, None);
           (c6, None); (c7, Some e)]
    | None =>
        Result (Returned tt) h7
          [(c1, None); (c2, None); (c3, None); (c4, None); (c5, None);
           (c6, None); (c7, None)]
    end end end end end end end.
Proof.
  cbv zeta. unfold execute_body, bake_lighting, export_obj.
  rewrite select_set_bind.
  destruct (select_set_error rt o true h); [reflexivity|]. cbv beta zeta.
  rewrite bind_assoc, active_set_bind.
  destruct (active_set_error rt o _); [reflexivity|]. cbv beta zeta.
  cbn [res_outcome res_state res_trace]. rewrite bind_assoc, deselect_all_bind.
  destruct (select_all_error rt DESELECT _); [reflexivity|]. cbv beta zeta.
  cbn [res_outcome res_state res_trace]. rewrite bind_assoc, select_set_bind.
  destruct (select_set_error rt o true _); [reflexivity|]. cbv beta zeta.
  cbn [res_outcome res_state res_trace]. rewrite bake_bind.
  destruct (bake_error rt _ _ _); [reflexivity|]. cbv beta zeta.
  cbn [res_outcome res_state res_trace]. rewrite export_bind.
  destruct (export_error rt _ _); [reflexivity|]. cbv beta zeta.
  cbn [res_outcome res_state res_trace].
  unfold bpy.select_set, host_op.
  destruct (select_set_error rt o false _); reflexivity.
Qed.
End Tree.

(** ** Traces *)

Lemma ops_of_cons ev r (tr : trace) :
  ops_of ((ev, r) :: tr) =
    if is_bake ev || is_export ev then ev :: ops_of tr else ops_of tr.
Proof.
  unfold ops_of. rewrite fmap_cons. simpl fst.
  destruct (is_bake ev || is_export ev) eqn:Hb.
  - rewrite filter_cons_True; [done|]. now rewrite Hb.
  - rewrite filter_cons_False; [done|]. now rewrite Hb.
Qed.

Lemma ops_of_app (tr tr' : trace) :
  ops_of (tr ++ tr') = ops_of tr ++ ops_of tr'.
Proof. unfold ops_of. now rewrite fmap_app, filter_app. Qed.

Lemma ops_of_lookup (tr : trace) i ev r :
  tr !! i = Some (ev, r) → is_bake ev || is_export ev = true →
  ∃ j, ops_of tr !! j = Some ev.
Proof.
  intros Hi Hop. apply list_elem_of_lookup. unfold ops_of.
  apply list_elem_of_filter. split; [now rewrite Hop|].
  apply list_elem_of_fmap. exists (ev, r). split; [done|].
  apply list_elem_of_lookup. eauto.
Qed.

(** ** The loop body *)

(** Split one pass of the loop body along its decision tree: which of
    its host calls, if any, raises. *)
Ltac run_body rt o h :=
  rewrite ?(execute_body_tree rt o h); cbv zeta;
  destruct (select_set_error rt o true h) as [?|];
  [|destruct (active_set_error rt o _) as [?|];
   [|destruct (select_all_error rt DESELECT _) as [?|];
    [|destruct (select_set_error rt o true _) as [?|];
     [|destruct (bake_error rt _ _ _) as [?|];
      [|destruct (export_error rt _ _) as [?|];
       [|destruct (select_set_error rt o false _) as [?|]]]]]]];
  cbn [res_outcome res_state res_trace snapshot
       set_selected set_active set_vertex_colors set_files
       selected active vertex_colors files data_collections classes
       VIEW3D_MT_object stdout
       exported_objects obj_export_args export_selected_objects filepath];
  rewrite ?ops_of_cons;
  cbn [is_bake is_export ev_call orb ops_of calls_of fmap list_fmap
       filter list_filter fst];
  rewrite ?(right_id_L (∅ : gset Object) (∪)).

Section Body.

Variable rt : Runtime.

Lemma execute_body_ops o h :
  ops_of (res_trace (execute_body rt o h))
    `prefix_of` [bake_event o; export_event rt o]
  ∧ (res_outcome (execute_body rt o h) = Returned tt →
     ops_of (res_trace (execute_body rt o h))
     = [bake_event o; export_event rt o]).
Proof.
  run_body rt o h.
  - split; [by eexists | discriminate].
  - split; [by eexists | discriminate].
  - split; [by eexists | discriminate].
  - split; [by eexists | discriminate].
  - split; [by exists [export_event rt o] | discriminate].
  - split; [by exists [] | discriminate].
  - split; [by exists [] | discriminate].
  - split; [by exists [] | done].
Qed.

Lemma execute_body_calls o h :
  calls_of (res_trace (execute_body rt o h)) `prefix_of` body_calls rt o
  ∧ (res_outcome (execute_body rt o h) = Returned tt →
     calls_of (res_trace (execute_body rt o h)) = body_calls rt o).
Proof.
  unfold body_calls. fold (export_path rt o). run_body rt o h.
  - split; [|discriminate]. by eexists [_; _; _; _; _; _].
  - split; [|discriminate]. by eexists [_; _; _; _; _].
  - split; [|discriminate]. by eexists [_; _; _; _].
  - split; [|discriminate]. by eexists [_; _; _].
  - split; [|discriminate]. by eexists [_; _].
  - split; [|discriminate]. by eexists [_].
  - split; [|discriminate]. by exists [].
  - split; [by exists [] | done].
Qed.

Lemma execute_body_selected o h :
  res_outcome (execute_body rt o h) = Returned tt →
  selected (res_state (execute_body rt o h)) = ∅.
Proof.
  run_body rt o h; try discriminate. intros _. apply difference_diag_L.
Qed.

Lemma execute_body_files o h path s :
  files (res_state (execute_body rt o h)) !! path = Some s →
  files h !! path = Some s ∨ (path = export_path rt o ∧ s = {[o]}).
Proof.
  run_body rt o h; try (intros; now left).
  all: intros Hs.
  all: destruct (decide (export_path rt o = path)) as [<-|Hne];
    [ rewrite lookup_insert_eq in Hs; injection Hs as <-; now right
    | rewrite lookup_insert_ne in Hs by done; now left ].
Qed.

Lemma execute_body_collections o h :
  data_collections (res_state (execute_body rt o h)) = data_collections h.
Proof. run_body rt o h; reflexivity. Qed.

(** ** The loop *)

Lemma for_each_cons_returned o l h :
  res_outcome (execute_body rt o h) = Returned tt →
  for_each (o :: l) (execute_body rt) h =
    let r := execute_body rt o h in
    let r' := for_each l (execute_body rt) (res_state r) in
    Result (res_outcome r') (res_state r') (res_trace r ++ res_trace r').
Proof. intros Ho. simpl for_each. now rewrite (bind_returned _ _ _ _ Ho). Qed.

Lemma for_each_cons_raised o l h e :
  res_outcome (execute_body rt o h) = Raised e →
  for_each (o :: l) (execute_body rt) h =
    Result (Raised e) (res_state (execute_body rt o h))
           (res_trace (execute_body rt o h)).
Proof. intros Ho. simpl for_each. now rewrite (bind_raised _ _ _ _ Ho). Qed.

(** Whatever is read off the trace call by call: if one pass shows an
    initial segment of [expect o], all of it when the pass returns, then
    the loop shows an initial segment of the passes in sequence, all of
    it when the loop returns. *)
Lemma loop_prefix {X} (view : trace → list X) (expect : Object → list X) :
  (∀ tr tr', view (tr ++ tr') = view tr ++ view tr') →
  view [] = [] →
  (∀ o h,
     view (res_trace (execute_body rt o h)) `prefix_of` expect o
     ∧ (res_outcome (execute_body rt o h) = Returned tt →
        view (res_trace (execute_body rt o h)) = expect o)) →
  ∀ objs h,
    view (res_trace (for_each objs (execute_body rt) h))
      `prefix_of` (o ← objs; expect o)
    ∧ (res_outcome (for_each objs (execute_body rt) h) = Returned tt →
       view (res_trace (for_each objs (execute_body rt) h))
       = o ← objs; expect o).
Proof.
  intros Happ Hnil Hbody objs. induction objs as [|o l IH]; intros h.
  - simpl. rewrite Hnil. split; [by exists [] | done].
  - destruct (Hbody o h) as [Hpre Hfull].
    change ((o :: l) ≫= expect) with (expect o ++ (l ≫= expect)).
    destruct (res_outcome (execute_body rt o h)) as [[]|e] eqn:Ho.
    + rewrite (for_each_cons_returned _ _ _ Ho). cbv zeta.
      cbn [res_trace res_outcome]. rewrite Happ, Hfull by done.
      destruct (IH (res_state (execute_body rt o h))) as [IHpre IHfull].
      split.
      * now apply prefix_app.
      * intros Hr. now rewrite IHfull.
    + rewrite (for_each_cons_raised _ _ _ _ Ho). cbn [res_trace res_outcome].
      split; [|discriminate]. now apply prefix_app_r.
Qed.

Lemma loop_ops objs h :
  ops_of (res_trace (for_each objs (execute_body rt) h))
    `prefix_of` expected_ops rt objs
  ∧ (res_outcome (for_each objs (execute_body rt) h) = Returned tt →
     ops_of (res_trace (for_each objs (execute_body rt) h))
     = expected_ops rt objs).
Proof.
  apply (loop_prefix ops_of (λ o, [bake_event o; export_event rt o]));
    [apply ops_of_app | done | apply execute_body_ops].
Qed.

Lemma loop_calls objs h :
  calls_of (res_trace (for_each objs (execute_body rt) h))
    `prefix_of` (o ← objs; body_calls rt o)
  ∧ (res_outcome (for_each objs (execute_body rt) h) = Returned tt →
     calls_of (res_trace (for_each objs (execute_body rt) h))
     = o ← objs; body_calls rt o).
Proof.
  apply (loop_prefix calls_of (body_calls rt));
    [apply fmap_app | done | apply execute_body_calls].
Qed.

Lemma loop_selected objs h :
  res_outcome (for_each objs (execute_body rt) h) = Returned tt →
  selected h = ∅ →
  selected (res_state (for_each objs (execute_body rt) h)) = ∅.
Proof.
  revert h. induction objs as [|o l IH]; intros h; [done|].
  destruct (res_outcome (execute_body rt o h)) as [[]|e] eqn:Ho.
  - rewrite (for_each_cons_returned _ _ _ Ho). cbv zeta.
    cbn [res_state res_outcome]. intros Hr _.
    apply IH; [done|]. now apply execute_body_selected.
  - rewrite (for_each_cons_raised _ _ _ _ Ho). discriminate.
Qed.

Lemma loop_files objs h path s :
  files (res_state (for_each objs (execute_body rt) h)) !! path = Some s →
  files h !! path = Some s
  ∨ ∃ o, o ∈ objs ∧ path = export_path rt o ∧ s = {[o]}.
Proof.
  revert h. induction objs as [|o l IH]; intros h; [now left|].
  assert (Hhere : o ∈ o :: l) by constructor.
  destruct (res_outcome (execute_body rt o h)) as [[]|e] eqn:Ho.
  - rewrite (for_each_cons_returned _ _ _ Ho). cbv zeta. cbn [res_state].
    intros Hs. apply IH in Hs as [Hs|(o' & Hin & Hp & Hs)].
    + apply execute_body_files in Hs as [Hs|[Hp Hs]]; [now left|].
      right. eauto.
    + right. exists o'. split; [now constructor | done].
  - rewrite (for_each_cons_raised _ _ _ _ Ho). cbn [res_state].
    intros Hs. apply execute_body_files in Hs as [Hs|[Hp Hs]]; [now left|].
    right. eauto.
Qed.

End Body.

(** ** The operator *)

Section Execute.

Variable rt : Runtime.

Lemma execute_not_found h :
  data_collections h !! collection_name = None →
  execute rt h =
    Result (Returned PyNone)
           (set_stdout (stdout h ++ ["Collection not found."]) h) [].
Proof.
  intros Hnone. unfold execute, bpy.data_collections_get, print.
  cbv [mbind M_bind bind res_outcome res_state res_trace mret M_ret ret app].
  now rewrite Hnone.
Qed.

Lemma execute_found h objs :
  data_collections h !! collection_name = Some objs →
  execute rt h =
    match select_all_error rt DESELECT h with
    | Some e =>
        Result (Raised e) h [(snapshot (Op_select_all DESELECT) h, Some e)]
    | None =>
        let r := for_each objs (execute_body rt) (set_selected ∅ h) in
        Result (match res_outcome r with
                | Returned _ => Returned (PySet {["FINISHED"]})
                | Raised e => Raised e
                end)
               (res_state r)
               ((snapshot (Op_select_all DESELECT) h, None) :: res_trace r)
    end.
Proof.
  intros Hsome. unfold execute.
  rewrite (bind_returned _ _ h (data_collections h !! collection_name))
    by reflexivity.
  cbn [bpy.data_collections_get res_state res_trace]. rewrite Hsome.
  rewrite deselect_all_bind.
  destruct (select_all_error rt DESELECT h) as [e|]; [reflexivity|].
  cbv beta zeta. cbn [app res_outcome res_state res_trace].
  unfold mbind, M_bind, bind, mret, M_ret, ret.
  destruct (for_each objs (execute_body rt) (set_selected ∅ h))
    as [[v|e] s t]; cbn [res_outcome res_state res_trace];
    [now rewrite app_nil_r | done].
Qed.

Lemma execute_ops h objs :
  data_collections h !! collection_name = Some objs →
  ops_of (res_trace (execute rt h)) `prefix_of` expected_ops rt objs
  ∧ (no_error_raised (res_trace (execute rt h)) →
     ops_of (res_trace (execute rt h)) = expected_ops rt objs).
Proof.
  intros Hsome.
  pose proof (well_raised_execute rt h) as Hwr.
  rewrite (execute_found _ _ Hsome) in Hwr |- *.
  destruct (select_all_error rt DESELECT h) as [e|].
  - cbn [res_trace]. rewrite ops_of_cons. split; [by eexists|].
    intros Hno. apply Forall_cons in Hno as [Hno _]. discriminate.
  - cbv zeta in *. cbn [res_trace] in *. rewrite ops_of_cons.
    cbn [is_bake is_export snapshot ev_call orb].
    destruct (loop_ops rt objs (set_selected ∅ h)) as [Hpre Hfull].
    split; [done|]. intros Hno. apply Hfull.
    apply well_raised_returns in Hwr as [v Hv]; [|done].
    cbn [res_outcome] in Hv.
    destruct (res_outcome (for_each objs (execute_body rt) (set_selected ∅ h)))
      as [[]|e]; [done | discriminate].
Qed.

End Execute.

(** ** The expected sequence of calls *)

Section ExpectedOps.

Variable rt : Runtime.

Lemma expected_ops_cons o objs :
  expected_ops rt (o :: objs)
  = bake_event o :: export_event rt o :: expected_ops rt objs.
Proof. reflexivity. Qed.

Lemma elem_of_expected_ops ev objs :
  ev ∈ expected_ops rt objs →
  ∃ o, o ∈ objs ∧ (ev = bake_event o ∨ ev = export_event rt o).
Proof.
  unfold expected_ops. rewrite list_elem_of_bind.
  intros (o & Hev & Ho). exists o. split; [done|].
  apply elem_of_cons in Hev as [->|Hev]; [now left|].
  apply list_elem_of_singleton in Hev as ->. now right.
Qed.

(** In the expected sequence an export sits right after the bake of the
    same object. *)
Lemma expected_ops_export objs i ev :
  expected_ops rt objs !! i = Some ev → is_export ev = true →
  ∃ j o, i = S j ∧ o ∈ objs
         ∧ expected_ops rt objs !! j = Some (bake_event o)
         ∧ ev = export_event rt o.
Proof.
  revert i. induction objs as [|o l IH]; intros i Hi Hex; [done|].
  rewrite expected_ops_cons in Hi |- *.
  destruct i as [|[|i]]; simpl in Hi.
  - injection Hi as <-. discriminate.
  - injection Hi as <-. exists 0, o. repeat split; constructor.
  - destruct (IH i Hi Hex) as (j & o' & -> & Hin & Hj & Hev).
    exists (S (S j)), o'. repeat split; [by constructor | done | done].
Qed.

Lemma execute_ops_prefix h :
  ops_of (res_trace (execute rt h))
    `prefix_of` expected_ops rt (collection_objects h).
Proof.
  unfold collection_objects.
  destruct (data_collections h !! collection_name) as [objs|] eqn:Hc.
  - now apply execute_ops.
  - rewrite (execute_not_found _ _ Hc). by exists [].
Qed.

Lemma execute_calls_prefix h :
  calls_of (res_trace (execute rt h))
    `prefix_of` expected_calls rt (collection_objects h).
Proof.
  unfold collection_objects, expected_calls.
  destruct (data_collections h !! collection_name) as [objs|] eqn:Hc.
  - rewrite (execute_found _ _ _ Hc).
    destruct (select_all_error rt DESELECT h) as [e|].
    + by eexists.
    + cbv zeta. cbn [res_trace default]. apply (prefix_app [_]), loop_calls.
  - rewrite (execute_not_found _ _ Hc). by eexists.
Qed.

(** Every export call of a run is the expected export of an object of
    the collection. *)
Lemma execute_export_event h i ev e :
  res_trace (execute rt h) !! i = Some (ev, e) → is_export ev = true →
  ∃ o, o ∈ collection_objects h ∧ ev = export_event rt o.
Proof.
  intros Hi Hex.
  destruct (ops_of_lookup _ _ _ _ Hi) as [j Hj]; [by rewrite Hex, orb_true_r|].
  eapply prefix_lookup_Some in Hj; [|apply execute_ops_prefix].
  apply list_elem_of_lookup_2, elem_of_expected_ops in Hj
    as (o & Hin & [->| ->]); [discriminate | eauto].
Qed.

End ExpectedOps.

(** * The claims *)

(** ** C1 *)

(** C1 as stated does not hold: when the host's bake operator raises on
    the first object of the collection (here the camera of the startup
    scene), [execute] stops there: the camera is never exported, and the
    cube and the light are neither baked nor exported. *)
Lemma bakes_and_exports_each_fails :
  ¬ bakes_and_exports_each Posix.strict_runtime Scenes.startup.
Proof.
  intros Hclaim.
  specialize (Hclaim [Scenes.camera; Scenes.cube; Scenes.light] eq_refl).
  apply (f_equal length) in Hclaim. vm_compute in Hclaim. discriminate.
Qed.

(** C1, amended: in a run in which no host call raises (no selection
    call, no bake, no export), for every object of the collection named
    "Collection" (when it exists) [execute] calls the host's bake with
    type [DIFFUSE] and target [VERTEX_COLORS] on that object and then the
    host's export for that object: the bake and export calls are exactly
    one bake followed by one export per object, in the order of the
    collection. *)
Theorem execute_bakes_and_exports_each rt h :
  raised (res_trace (execute rt h)) = [] →
  bakes_and_exports_each rt h.
Proof.
  intros Hno objs Hc. apply execute_ops; [done|]. now apply raised_nil.
Qed.

Lemma execute_bakes_and_exports_each_witness :
  ops_of (res_trace (execute Posix.runtime Scenes.startup))
  = expected_ops Posix.runtime [Scenes.camera; Scenes.cube; Scenes.light].
Proof.
  apply (execute_bakes_and_exports_each Posix.runtime Scenes.startup).
  - vm_compute. reflexivity.
  - reflexivity.
Defined.

(** ** C2 *)

(** C2: every export call of [execute] is made for an object [o] of the
    collection, the only selected object at that moment, and the file path
    it passes is [os.path.join] of the fixed output directory and
    [o.name.lower() + ".obj"]; the other export arguments are the fixed
    ones of [export_obj]. *)
Theorem export_filepath rt h i ev e a :
  res_trace (execute rt h) !! i = Some (ev, e) →
  ev_call ev = Op_obj_export a →
  ∃ o, o ∈ collection_objects h
       ∧ ev_selected ev = {[o]}
       ∧ filepath a
         = os_path_join rt output_directory
             (str_lower rt (ob_name o) +:+ ".obj")
       ∧ a = obj_export_args (filepath a).
Proof.
  intros Hi Ha.
  destruct (execute_export_event rt h i ev e Hi) as (o & Hin & ->).
  - unfold is_export. now rewrite Ha.
  - injection Ha as <-. exists o. repeat split; done.
Qed.

Lemma export_filepath_witness :
  ∃ o, o ∈ collection_objects Scenes.startup
       ∧ ev_selected (export_event Posix.runtime Scenes.cube) = {[o]}
       ∧ filepath (obj_export_args (export_path Posix.runtime Scenes.cube))
         = Posix.join output_directory (Posix.lower (ob_name o) +:+ ".obj")
       ∧ obj_export_args (export_path Posix.runtime Scenes.cube)
         = obj_export_args
             (filepath (obj_export_args (export_path Posix.runtime Scenes.cube))).
Proof.
  apply (export_filepath Posix.runtime Scenes.startup 13
           (export_event Posix.runtime Scenes.cube) None).
  - reflexivity.
  - reflexivity.
Defined.

Example cube_path :
  export_path Posix.runtime Scenes.cube
  = "C:/dev/rust/rust development/wgpu/New folder/cityscaper/res/cube.obj".
Proof. reflexivity. Qed.

(** ** C3 *)

(** C3: when there is no collection named "Collection", [execute] prints
    "Collection not found." and ends early with a bare [return]: it raises
    nothing itself, but what it hands to the host is [None], which is no
    set of status strings at all, where the other path hands back
    [{'FINISHED'}]. *)
Theorem execute_not_found_returns rt h :
  data_collections h !! collection_name = None →
  res_outcome (execute rt h) = Returned PyNone
  ∧ (∀ s, res_outcome (execute rt h) ≠ Returned (PySet s))
  ∧ stdout (res_state (execute rt h)) = stdout h ++ ["Collection not found."].
Proof.
  intros Hnone. rewrite (execute_not_found _ _ Hnone).
  split; [done|]. split; [discriminate | done].
Qed.

Lemma execute_not_found_returns_witness :
  res_outcome (execute Posix.runtime Scenes.renamed) = Returned PyNone
  ∧ (∀ s, res_outcome (execute Posix.runtime Scenes.renamed)
          ≠ Returned (PySet s))
  ∧ stdout (res_state (execute Posix.runtime Scenes.renamed))
    = stdout Scenes.renamed ++ ["Collection not found."].
Proof.
  apply (execute_not_found_returns Posix.runtime Scenes.renamed).
  reflexivity.
Defined.

(** ** C4 *)

(** C4: when there is no collection named "Collection", [execute] makes
    no host call at all (no bake, no export, no change of selection or of
    the active object) and leaves the scene as it found it: collections,
    selection, active object, vertex colours and files are unchanged. *)
Theorem execute_not_found_no_effect rt h :
  data_collections h !! collection_name = None →
  res_trace (execute rt h) = []
  ∧ data_collections (res_state (execute rt h)) = data_collections h
  ∧ selected (res_state (execute rt h)) = selected h
  ∧ active (res_state (execute rt h)) = active h
  ∧ vertex_colors (res_state (execute rt h)) = vertex_colors h
  ∧ files (res_state (execute rt h)) = files h.
Proof.
  intros Hnone. now rewrite (execute_not_found _ _ Hnone).
Qed.

Lemma execute_not_found_no_effect_witness :
  res_trace (execute Posix.runtime Scenes.renamed) = []
  ∧ data_collections (res_state (execute Posix.runtime Scenes.renamed))
    = data_collections Scenes.renamed
  ∧ selected (res_state (execute Posix.runtime Scenes.renamed))
    = selected Scenes.renamed
  ∧ active (res_state (execute Posix.runtime Scenes.renamed))
    = active Scenes.renamed
  ∧ vertex_colors (res_state (execute Posix.runtime Scenes.renamed))
    = vertex_colors Scenes.renamed
  ∧ files (res_state (execute Posix.runtime Scenes.renamed))
    = files Scenes.renamed.
Proof.
  apply (execute_not_found_no_effect Posix.runtime Scenes.renamed).
  reflexivity.
Defined.

(** ** C5 *)

(** C5: in every run of [execute] the bake and export calls follow the
    collection, one object at a time: they form an initial segment of
    [bake o1; export o1; bake o2; export o2; ...] for the objects
    [o1, o2, ...] in iteration order.  In particular every export call
    comes immediately after the bake call of the same object, so no export
    of an object precedes its bake. *)
Theorem execute_sequential rt h :
  ops_of (res_trace (execute rt h))
    `prefix_of` expected_ops rt (collection_objects h)
  ∧ ∀ i ev,
      ops_of (res_trace (execute rt h)) !! i = Some ev →
      is_export ev = true →
      ∃ j o, i = S j
             ∧ o ∈ collection_objects h
             ∧ ops_of (res_trace (execute rt h)) !! j = Some (bake_event o)
             ∧ ev = export_event rt o.
Proof.
  pose proof (execute_ops_prefix rt h) as Hpre. split; [done|].
  intros i ev Hi Hex.
  pose proof (prefix_lookup_Some _ _ _ _ Hi Hpre) as Hi'.
  destruct (expected_ops_export rt _ _ _ Hi' Hex) as (j & o & -> & Hin & Hj & ->).
  exists j, o. split; [done|]. split; [done|]. split; [|done].
  rewrite <- Hj. apply prefix_lookup_lt; [|done].
  apply lookup_lt_Some in Hi. lia.
Qed.

Lemma execute_sequential_witness :
  ∃ j o, 3 = S j
         ∧ o ∈ collection_objects Scenes.startup
         ∧ ops_of (res_trace (execute Posix.runtime Scenes.startup)) !! j
           = Some (bake_event o)
         ∧ export_event Posix.runtime Scenes.cube
           = export_event Posix.runtime o.
Proof.
  apply (proj2 (execute_sequential Posix.runtime Scenes.startup) 3
           (export_event Posix.runtime Scenes.cube)).
  - reflexivity.
  - reflexivity.
Defined.

(** ** C6 *)

(** C6: [register] registers the operator class [BakeAndExport] with the
    host and appends [menu_func] to the draw functions of the existing
    menu [VIEW3D_MT_object]; drawn, the menu shows one more entry, that of
    the operator. *)
Theorem register_registers h :
  res_outcome (register h) = Returned tt
  ∧ classes (res_state (register h))
    = <[bl_idname BakeAndExport := BakeAndExport]> (classes h)
  ∧ classes (res_state (register h)) !! "object.bake_and_export"
    = Some BakeAndExport
  ∧ VIEW3D_MT_object (res_state (register h))
    = VIEW3D_MT_object h ++ [menu_func]
  ∧ bpy.menu_draw (VIEW3D_MT_object (res_state (register h)))
    = bpy.menu_draw (VIEW3D_MT_object h) ++ ["object.bake_and_export"].
Proof.
  repeat split.
  - apply lookup_insert_eq.
  - unfold bpy.menu_draw. cbn [register res_state]. simpl.
    now rewrite foldl_snoc.
Qed.

(** ** C7 *)

(** C7: [execute] has no handler around its host calls.  When a bake or
    export call raises [e], that call is the last host call of the run (no
    retry, no clean-up such as deselecting the object), the run ends in
    the very state in which the call was made, and its outcome is [e]
    itself, raised to the caller. *)
Theorem execute_propagates rt h i ev e :
  res_trace (execute rt h) !! i = Some (ev, Some e) →
  res_outcome (execute rt h) = Raised e
  ∧ length (res_trace (execute rt h)) = S i
  ∧ ∃ c, ev = snapshot c (res_state (execute rt h)).
Proof.
  apply well_raised_last, well_raised_execute.
Qed.

Lemma execute_propagates_witness :
  res_outcome (execute Posix.strict_runtime Scenes.startup)
  = Raised Posix.no_mesh
  ∧ length (res_trace (execute Posix.strict_runtime Scenes.startup)) = 6
  ∧ ∃ c, bake_event Scenes.camera
         = snapshot c (res_state (execute Posix.strict_runtime Scenes.startup)).
Proof.
  apply (execute_propagates Posix.strict_runtime Scenes.startup 5
           (bake_event Scenes.camera) Posix.no_mesh).
  reflexivity.
Defined.

(** ** C8 *)

(** C8: [register] followed by [unregister] does not restore the menu.
    [unregister] never touches the menu; it only removes the class. After
    the pair the class is gone, but the draw functions of
    [VIEW3D_MT_object] are the earlier ones followed by [menu_func], which
    is not the list the pair started from. *)
Theorem register_unregister_keeps_menu_entry h :
  (∀ h', VIEW3D_MT_object (res_state (unregister h')) = VIEW3D_MT_object h')
  ∧ res_outcome ((register;; unregister) h) = Returned tt
  ∧ classes (res_state ((register;; unregister) h))
      !! bl_idname BakeAndExport = None
  ∧ VIEW3D_MT_object (res_state ((register;; unregister) h))
    = VIEW3D_MT_object h ++ [menu_func]
  ∧ VIEW3D_MT_object (res_state ((register;; unregister) h))
    ≠ VIEW3D_MT_object h.
Proof.
  split; [done|]. split; [done|]. split; [|split; [done|]].
  - cbn. apply lookup_delete_eq.
  - change (VIEW3D_MT_object h ++ [menu_func] ≠ VIEW3D_MT_object h).
    intros Heq. apply (f_equal length) in Heq.
    rewrite length_app in Heq. simpl in Heq. lia.
Qed.

(** ** C9 *)

(** C9 as stated does not hold: in the startup scene the collection
    exists, yet with a host whose bake operator rejects the camera
    [execute] raises and returns no status at all. *)
Lemma finishes_when_found_fails :
  ¬ finishes_when_found Posix.strict_runtime Scenes.startup.
Proof.
  intros Hclaim. unfold finishes_when_found in Hclaim.
  assert (Hfound : is_Some (data_collections Scenes.startup !! collection_name))
    by (eexists; reflexivity).
  specialize (Hclaim Hfound). vm_compute in Hclaim. discriminate.
Qed.

(** C9, amended: in every run of [execute] in which the named collection
    exists and no host call raises (no selection call, no bake, no
    export), [execute] returns the status set [{'FINISHED'}]; this
    includes the collection without objects. *)
Theorem execute_finished rt h :
  raised (res_trace (execute rt h)) = [] →
  finishes_when_found rt h.
Proof.
  intros Hno [objs Hc]. apply raised_nil in Hno.
  destruct (well_raised_returns _ (well_raised_execute rt h) Hno) as [v Hv].
  rewrite (execute_found _ _ _ Hc) in Hv |- *.
  destruct (select_all_error rt DESELECT h) as [e|]; [discriminate|].
  cbv zeta in *. cbn [res_outcome] in *.
  destruct (res_outcome (for_each objs (execute_body rt) (set_selected ∅ h)));
    [done | discriminate].
Qed.

Lemma execute_finished_witness :
  res_outcome (execute Posix.runtime Scenes.startup)
  = Returned (PySet {["FINISHED"]})
  ∧ res_outcome (execute Posix.runtime Scenes.bare)
    = Returned (PySet {["FINISHED"]}).
Proof.
  split.
  - apply (execute_finished Posix.runtime Scenes.startup).
    + vm_compute. reflexivity.
    + eexists. reflexivity.
  - apply (execute_finished Posix.runtime Scenes.bare).
    + reflexivity.
    + eexists. reflexivity.
Defined.

(** ** C10 *)

(** C10: the host calls of a run are an initial segment of: deselect
    all; then per object of the collection: select it, make it active,
    deselect all, select it, bake, export, deselect it.  At every export
    call exactly one object is selected, the object of the collection being
    processed (it is also the active object, and the path is its path);
    hence every file [execute] writes holds exactly that one object; and
    when [execute] returns, no object of the collection is selected. *)
Theorem export_selects_one rt h :
  calls_of (res_trace (execute rt h))
    `prefix_of` expected_calls rt (collection_objects h)
  ∧ (∀ i ev e,
     res_trace (execute rt h) !! i = Some (ev, e) → is_export ev = true →
     ∃ o, o ∈ collection_objects h
          ∧ ev_selected ev = {[o]}
          ∧ ev_active ev = Some o
          ∧ ev_call ev = Op_obj_export (obj_export_args (export_path rt o)))
  ∧ (∀ path s,
       files (res_state (execute rt h)) !! path = Some s →
       files h !! path = Some s
       ∨ ∃ o, o ∈ collection_objects h ∧ path = export_path rt o ∧ s = {[o]})
  ∧ (∀ v,
       res_outcome (execute rt h) = Returned v →
       ∀ o, o ∈ collection_objects h →
            o ∉ selected (res_state (execute rt h))).
Proof.
  split; [apply execute_calls_prefix|]. split; [|split].
  - intros i ev e Hi Hex.
    destruct (execute_export_event rt h i ev e Hi Hex) as (o & Hin & ->).
    exists o. repeat split; done.
  - intros path s. unfold collection_objects.
    destruct (data_collections h !! collection_name) as [objs|] eqn:Hc.
    + rewrite (execute_found _ _ _ Hc).
      destruct (select_all_error rt DESELECT h) as [e|]; [now left|].
      cbv zeta. cbn [res_state default].
      intros Hs. apply loop_files in Hs. exact Hs.
    + rewrite (execute_not_found _ _ Hc). now left.
  - intros v. unfold collection_objects.
    destruct (data_collections h !! collection_name) as [objs|] eqn:Hc.
    + rewrite (execute_found _ _ _ Hc).
      destruct (select_all_error rt DESELECT h) as [e|]; [discriminate|].
      cbv zeta. cbn [res_state res_outcome].
      intros Hv o _.
      destruct (res_outcome (for_each objs (execute_body rt) (set_selected ∅ h)))
        as [[]|e] eqn:Hloop; [|discriminate].
      rewrite (loop_selected rt objs _ Hloop); [|done]. set_solver.
    + intros _ o Hin. cbn in Hin. now apply elem_of_nil in Hin.
Qed.

Lemma export_selects_one_witness :
  (∃ o, o ∈ collection_objects Scenes.startup
        ∧ ev_selected (export_event Posix.runtime Scenes.cube) = {[o]}
        ∧ ev_active (export_event Posix.runtime Scenes.cube) = Some o
        ∧ ev_call (export_event Posix.runtime Scenes.cube)
          = Op_obj_export (obj_export_args (export_path Posix.runtime o)))
  ∧ (files Scenes.startup !! export_path Posix.runtime Scenes.cube
     = Some {[Scenes.cube]}
     ∨ ∃ o, o ∈ collection_objects Scenes.startup
            ∧ export_path Posix.runtime Scenes.cube = export_path Posix.runtime o
            ∧ {[Scenes.cube]} = ({[o]} : gset Object))
  ∧ (∀ o, o ∈ collection_objects Scenes.startup →
          o ∉ selected (res_state (execute Posix.runtime Scenes.startup))).
Proof.
  destruct (export_selects_one Posix.runtime Scenes.startup)
    as (_ & Hsel & Hfile & Hend).
  split; [|split].
  - apply (Hsel 13 (export_event Posix.runtime Scenes.cube) None); reflexivity.
  - apply (Hfile (export_path Posix.runtime Scenes.cube) {[Scenes.cube]}).
    reflexivity.
  - apply (Hend (PySet {["FINISHED"]})). reflexivity.
Defined.

(** * Further properties *)

Example edit_mode_run :
  res_outcome (execute Posix.edit_mode_runtime Scenes.startup)
  = Raised Posix.poll_failed
  ∧ calls_of (res_trace (execute Posix.edit_mode_runtime Scenes.startup))
    = [Op_select_all DESELECT].
Proof. split; reflexivity. Qed.

Example excluded_run :
  res_outcome (execute Posix.excluded_runtime Scenes.startup)
  = Raised Posix.not_in_view_layer
  ∧ ops_of (res_trace (execute Posix.excluded_runtime Scenes.startup))
    = [bake_event Scenes.camera;
       export_event Posix.excluded_runtime Scenes.camera].
Proof. split; reflexivity. Qed.

(** ** One pass of the loop, as a change of state *)

Section BodyState.

Variable rt : Runtime.

Lemma execute_body_returned o h :
  res_outcome (execute_body rt o h) = Returned tt →
  res_state (execute_body rt o h) = pass rt h o.
Proof.
  run_body rt o h; try discriminate. intros _.
  unfold pass.
  cbn [set_selected set_active set_vertex_colors set_files
       selected active vertex_colors files data_collections classes
       VIEW3D_MT_object stdout].
  now rewrite difference_diag_L.
Qed.


Lemma execute_body_frame o h :
  data_collections (res_state (execute_body rt o h)) = data_collections h
  ∧ classes (res_state (execute_body rt o h)) = classes h
  ∧ VIEW3D_MT_object (res_state (execute_body rt o h)) = VIEW3D_MT_object h
  ∧ stdout (res_state (execute_body rt o h)) = stdout h.
Proof. run_body rt o h; repeat split. Qed.

(** ** The loop, as a change of state *)

Lemma loop_returned objs h :
  res_outcome (for_each objs (execute_body rt) h) = Returned tt →
  res_state (for_each objs (execute_body rt) h) = foldl (pass rt) h objs.
Proof.
  revert h. induction objs as [|o l IH]; intros h; [done|].
  destruct (res_outcome (execute_body rt o h)) as [[]|e] eqn:Ho.
  - rewrite (for_each_cons_returned _ _ _ _ Ho). cbv zeta.
    cbn [res_state res_outcome foldl]. intros Hr.
    rewrite <- (execute_body_returned _ _ Ho). now apply IH.
  - rewrite (for_each_cons_raised _ _ _ _ _ Ho). discriminate.
Qed.

Lemma loop_frame objs h :
  data_collections (res_state (for_each objs (execute_body rt) h))
  = data_collections h
  ∧ classes (res_state (for_each objs (execute_body rt) h)) = classes h
  ∧ VIEW3D_MT_object (res_state (for_each objs (execute_body rt) h))
    = VIEW3D_MT_object h
  ∧ stdout (res_state (for_each objs (execute_body rt) h)) = stdout h.
Proof.
  revert h. induction objs as [|o l IH]; intros h; [done|].
  destruct (execute_body_frame o h) as (Hc & Hk & Hm & Hs).
  destruct (res_outcome (execute_body rt o h)) as [[]|e] eqn:Ho.
  - rewrite (for_each_cons_returned _ _ _ _ Ho). cbv zeta. cbn [res_state].
    destruct (IH (res_state (execute_body rt o h))) as (-> & -> & -> & ->).
    done.
  - now rewrite (for_each_cons_raised _ _ _ _ _ Ho).
Qed.


(** ** What completed passes leave behind *)

Lemma pass_files h objs path :
  files (foldl (pass rt) h objs) !! path
  = match last_exported_to rt path objs with
    | Some o => Some {[o]}
    | None => files h !! path
    end.
Proof.
  revert h. induction objs as [|o l IH]; intros h; [done|].
  cbn [foldl]. rewrite IH. unfold last_exported_to.
  rewrite filter_cons. destruct (decide (export_path rt o = path)) as [Hp|Hp].
  - rewrite last_cons.
    destruct (last (filter (λ o', export_path rt o' = path) l)); [done|].
    cbn [pass set_selected set_files files]. rewrite Hp.
    apply lookup_insert_eq.
  - destruct (last (filter (λ o', export_path rt o' = path) l)); [done|].
    cbn [pass set_selected set_files files]. now apply lookup_insert_ne.
Qed.

Lemma pass_vertex_colors h objs :
  vertex_colors (foldl (pass rt) h objs)
  = list_to_set objs ∪ vertex_colors h.
Proof.
  revert h. induction objs as [|o l IH]; intros h.
  - cbn [foldl]. now rewrite list_to_set_nil, (left_id_L ∅ (∪)).
  - cbn [foldl]. rewrite IH. cbn [pass set_selected set_files
      set_vertex_colors vertex_colors].
    rewrite list_to_set_cons, (assoc_L (∪)).
    now rewrite (comm_L (∪) (list_to_set l) {[o]}).
Qed.

Lemma pass_active h objs :
  active (foldl (pass rt) h objs)
  = match last objs with Some o => Some o | None => active h end.
Proof.
  revert h. induction objs as [|o l IH]; intros h; [done|].
  cbn [foldl]. rewrite IH, last_cons. now destruct (last l).
Qed.

Lemma pass_selected h objs :
  selected h = ∅ → selected (foldl (pass rt) h objs) = ∅.
Proof.
  revert h. induction objs as [|o l IH]; intros h Hh; [done|].
  cbn [foldl]. now apply IH.
Qed.

End BodyState.

(** ** Runs of [execute], as a change of state *)

Section Runs.

Variable rt : Runtime.

Lemma execute_returned h objs v :
  data_collections h !! collection_name = Some objs →
  res_outcome (execute rt h) = Returned v →
  res_state (execute rt h) = foldl (pass rt) (set_selected ∅ h) objs.
Proof.
  intros Hc. rewrite (execute_found _ _ _ Hc).
  destruct (select_all_error rt DESELECT h) as [e|]; [discriminate|].
  cbv zeta. cbn [res_outcome res_state]. intros Hv. apply loop_returned.
  destruct (res_outcome (for_each objs (execute_body rt) (set_selected ∅ h)))
    as [[]|e]; [done | discriminate].
Qed.

Lemma execute_keeps_collections h :
  data_collections (res_state (execute rt h)) = data_collections h.
Proof.
  destruct (data_collections h !! collection_name) as [objs|] eqn:Hc.
  - rewrite (execute_found _ _ _ Hc).
    destruct (select_all_error rt DESELECT h) as [e|]; [done|].
    cbv zeta. cbn [res_state].
    apply (loop_frame rt objs (set_selected ∅ h)).
  - now rewrite (execute_not_found _ _ Hc).
Qed.

Lemma raised_quiet_snoc (tr : trace) ev e :
  no_error_raised tr → raised (tr ++ [(ev, Some e)]) = [e].
Proof.
  intros Hno. apply raised_nil in Hno. unfold raised in *.
  now rewrite omap_app, Hno.
Qed.

Lemma last_exported_to_NoDup objs o :
  NoDup (export_path rt <$> objs) → o ∈ objs →
  last_exported_to rt (export_path rt o) objs = Some o.
Proof.
  unfold last_exported_to. induction objs as [|o0 l IH]; intros Hnd Hin.
  - now apply elem_of_nil in Hin.
  - rewrite fmap_cons in Hnd. apply NoDup_cons in Hnd as [Hfresh Hnd].
    rewrite filter_cons. apply elem_of_cons in Hin as [->|Hin].
    + rewrite decide_True by done. rewrite last_cons.
      destruct (last (filter (λ o', export_path rt o' = export_path rt o0) l))
        as [o'|] eqn:Hlast; [|done].
      apply last_Some_elem_of, list_elem_of_filter in Hlast as [Hp Hin'].
      destruct Hfresh. rewrite <- Hp. apply list_elem_of_fmap. eauto.
    + rewrite decide_False; [now apply IH|].
      intros Hp. destruct Hfresh. rewrite Hp. apply list_elem_of_fmap. eauto.
Qed.

End Runs.

(** ** X1 *)



(** ** X2 *)

(** X2: when the collection exists and [execute] returns, nothing at all
    is selected any more, also no object outside the collection that was
    selected before; the active object is the last object of the
    collection, or the earlier active object when the collection is
    empty. *)
Theorem execute_leaves_nothing_selected rt h objs v :
  data_collections h !! collection_name = Some objs →
  res_outcome (execute rt h) = Returned v →
  selected (res_state (execute rt h)) = ∅
  ∧ active (res_state (execute rt h))
    = match last objs with Some o => Some o | None => active h end.
Proof.
  intros Hc Hv. rewrite (execute_returned rt h objs v Hc Hv).
  split; [now apply pass_selected|].
  exact (pass_active rt (set_selected ∅ h) objs).
Qed.

Lemma execute_leaves_nothing_selected_witness :
  selected (res_state (execute Posix.runtime Twins.scene)) = ∅
  ∧ active (res_state (execute Posix.runtime Twins.scene)) = Some Twins.lower.
Proof.
  apply (execute_leaves_nothing_selected Posix.runtime Twins.scene
           [Twins.upper; Twins.lower] (PySet {["FINISHED"]}));
    reflexivity.
Defined.

(** ** X3 *)

(** X3: when the collection exists and [execute] returns, the files are
    those found before, except that every path some object of the
    collection is exported to now holds exactly one object: the last
    object of the collection exported to that path. *)
Theorem execute_files rt h objs v path :
  data_collections h !! collection_name = Some objs →
  res_outcome (execute rt h) = Returned v →
  files (res_state (execute rt h)) !! path
  = match last_exported_to rt path objs with
    | Some o => Some {[o]}
    | None => files h !! path
    end.
Proof.
  intros Hc Hv. rewrite (execute_returned rt h objs v Hc Hv).
  exact (pass_files rt (set_selected ∅ h) objs path).
Qed.

Lemma execute_files_witness :
  files (res_state (execute Posix.runtime Twins.scene))
    !! "C:/dev/rust/rust development/wgpu/New folder/cityscaper/res/wall.obj"
  = Some {[Twins.lower]}.
Proof.
  apply (execute_files Posix.runtime Twins.scene [Twins.upper; Twins.lower]
           (PySet {["FINISHED"]})); reflexivity.
Defined.

(** ** X4 *)

(** X4: when the collection exists, [execute] returns and the objects of
    the collection are exported to pairwise different paths, then every
    object of the collection has its own file, at its path, holding
    exactly that object. *)
Theorem one_file_per_object rt h objs v o :
  data_collections h !! collection_name = Some objs →
  res_outcome (execute rt h) = Returned v →
  NoDup (export_path rt <$> objs) →
  o ∈ objs →
  files (res_state (execute rt h)) !! export_path rt o = Some {[o]}.
Proof.
  intros Hc Hv Hnd Hin. rewrite (execute_returned rt h objs v Hc Hv).
  rewrite (pass_files rt (set_selected ∅ h) objs).
  now rewrite last_exported_to_NoDup.
Qed.

Lemma one_file_per_object_witness :
  files (res_state (execute Posix.runtime Scenes.startup))
    !! export_path Posix.runtime Scenes.cube
  = Some {[Scenes.cube]}.
Proof.
  apply (one_file_per_object Posix.runtime Scenes.startup
           [Scenes.camera; Scenes.cube; Scenes.light] (PySet {["FINISHED"]})).
  - reflexivity.
  - reflexivity.
  - apply (bool_decide_unpack _). vm_compute. reflexivity.
  - apply (bool_decide_unpack _). vm_compute. reflexivity.
Defined.

(** ** X5 *)

(** X5: when two objects of the collection are exported to the same path
    (their names differ in case only, say), the earlier export is lost:
    after a run that returns, the file at that path holds the later
    object and not the earlier one. *)
Theorem colliding_export_is_overwritten rt h objs v o1 o2 :
  data_collections h !! collection_name = Some objs →
  res_outcome (execute rt h) = Returned v →
  last_exported_to rt (export_path rt o1) objs = Some o2 →
  o1 ≠ o2 →
  files (res_state (execute rt h)) !! export_path rt o1 = Some {[o2]}
  ∧ o1 ∉ ({[o2]} : gset Object).
Proof.
  intros Hc Hv Hlast Hne. rewrite (execute_returned rt h objs v Hc Hv).
  rewrite (pass_files rt (set_selected ∅ h) objs), Hlast.
  split; [done|]. now apply not_elem_of_singleton.
Qed.

Lemma colliding_export_is_overwritten_witness :
  files (res_state (execute Posix.runtime Twins.scene))
    !! export_path Posix.runtime Twins.upper
  = Some {[Twins.lower]}
  ∧ Twins.upper ∉ ({[Twins.lower]} : gset Object).
Proof.
  apply (colliding_export_is_overwritten Posix.runtime Twins.scene
           [Twins.upper; Twins.lower] (PySet {["FINISHED"]})).
  - reflexivity.
  - reflexivity.
  - reflexivity.
  - discriminate.
Defined.

(** ** X6 *)

(** X6: when the collection exists and [execute] returns, the objects
    that carry baked vertex colours are those that did before and the
    objects of the collection; no object outside the collection is
    baked. *)
Theorem execute_vertex_colors rt h objs v :
  data_collections h !! collection_name = Some objs →
  res_outcome (execute rt h) = Returned v →
  vertex_colors (res_state (execute rt h))
  = list_to_set objs ∪ vertex_colors h.
Proof.
  intros Hc Hv. rewrite (execute_returned rt h objs v Hc Hv).
  exact (pass_vertex_colors rt (set_selected ∅ h) objs).
Qed.

Lemma execute_vertex_colors_witness :
  vertex_colors (res_state (execute Posix.runtime Twins.scene))
  = list_to_set [Twins.upper; Twins.lower] ∪ vertex_colors Twins.scene.
Proof.
  apply (execute_vertex_colors Posix.runtime Twins.scene
           [Twins.upper; Twins.lower] (PySet {["FINISHED"]})); reflexivity.
Defined.

(** ** X7 *)

(** X7: no run of [execute], returning or raising, changes the
    collections, the registered classes or the object menu; and it prints
    only on the path where the collection is missing, one line. *)
Theorem execute_frame rt h :
  data_collections (res_state (execute rt h)) = data_collections h
  ∧ classes (res_state (execute rt h)) = classes h
  ∧ VIEW3D_MT_object (res_state (execute rt h)) = VIEW3D_MT_object h
  ∧ stdout (res_state (execute rt h))
    = match data_collections h !! collection_name with
      | Some _ => stdout h
      | None => stdout h ++ ["Collection not found."]
      end.
Proof.
  destruct (data_collections h !! collection_name) as [objs|] eqn:Hc.
  - rewrite (execute_found _ _ _ Hc).
    destruct (select_all_error rt DESELECT h) as [e|]; [done|].
    cbv zeta. cbn [res_state].
    exact (loop_frame rt objs (set_selected ∅ h)).
  - now rewrite (execute_not_found _ _ Hc).
Qed.

(** ** X8 *)


(** ** X9 *)



(** ** X10 *)

(** X10: [execute] raises nothing of its own and swallows nothing: the
    exceptions raised by its host calls are none when it returns, and
    exactly the one it raises when it raises. *)
Theorem execute_raises_what_was_raised rt h :
  raised (res_trace (execute rt h))
  = match res_outcome (execute rt h) with
    | Returned _ => []
    | Raised e => [e]
    end.
Proof.
  pose proof (well_raised_execute rt h) as Hwr. unfold well_raised in Hwr.
  destruct (res_outcome (execute rt h)) as [v|e].
  - now apply raised_nil.
  - destruct Hwr as (tr & c & -> & Hno). now apply raised_quiet_snoc.
Qed.

(** ** X11 *)

(** X11: running [execute] a second time changes nothing more: when the
    collection exists and both runs return, the second run leaves the
    files, the vertex colours, the selection and the active object as the
    first run left them. *)
Theorem execute_again_changes_nothing rt h objs v v' :
  data_collections h !! collection_name = Some objs →
  res_outcome (execute rt h) = Returned v →
  res_outcome (execute rt (res_state (execute rt h))) = Returned v' →
  files (res_state (execute rt (res_state (execute rt h))))
  = files (res_state (execute rt h))
  ∧ vertex_colors (res_state (execute rt (res_state (execute rt h))))
    = vertex_colors (res_state (execute rt h))
  ∧ selected (res_state (execute rt (res_state (execute rt h))))
    = selected (res_state (execute rt h))
  ∧ active (res_state (execute rt (res_state (execute rt h))))
    = active (res_state (execute rt h)).
Proof.
  intros Hc Hv Hv'.
  assert (Hc' : data_collections (res_state (execute rt h)) !! collection_name
                = Some objs) by now rewrite execute_keeps_collections.
  rewrite (execute_returned rt _ objs v' Hc' Hv').
  rewrite (execute_returned rt h objs v Hc Hv).
  set (h0 := set_selected ∅ h). set (h1 := foldl (pass rt) h0 objs).
  split; [|split; [|split]].
  - apply map_eq. intros path.
    rewrite (pass_files rt (set_selected ∅ h1) objs path).
    change (files (set_selected ∅ h1)) with (files h1). unfold h1.
    rewrite (pass_files rt h0 objs path).
    now destruct (last_exported_to rt path objs).
  - rewrite (pass_vertex_colors rt (set_selected ∅ h1) objs).
    change (vertex_colors (set_selected ∅ h1)) with (vertex_colors h1).
    unfold h1. rewrite (pass_vertex_colors rt h0 objs).
    now rewrite (assoc_L (∪)), (idemp_L (∪)).
  - rewrite (pass_selected rt (set_selected ∅ h1) objs) by done.
    unfold h1. now rewrite (pass_selected rt h0 objs).
  - rewrite (pass_active rt (set_selected ∅ h1) objs).
    change (active (set_selected ∅ h1)) with (active h1). unfold h1.
    rewrite (pass_active rt h0 objs). now destruct (last objs).
Qed.

Lemma execute_again_changes_nothing_witness :
  files (res_state (execute Posix.runtime
                      (res_state (execute Posix.runtime Twins.scene))))
  = files (res_state (execute Posix.runtime Twins.scene))
  ∧ vertex_colors (res_state (execute Posix.runtime
                      (res_state (execute Posix.runtime Twins.scene))))
    = vertex_colors (res_state (execute Posix.runtime Twins.scene))
  ∧ selected (res_state (execute Posix.runtime
                      (res_state (execute Posix.runtime Twins.scene))))
    = selected (res_state (execute Posix.runtime Twins.scene))
  ∧ active (res_state (execute Posix.runtime
                      (res_state (execute Posix.runtime Twins.scene))))
    = active (res_state (execute Posix.runtime Twins.scene)).
Proof.
  apply (execute_again_changes_nothing Posix.runtime Twins.scene
           [Twins.upper; Twins.lower]
           (PySet {["FINISHED"]}) (PySet {["FINISHED"]})); reflexivity.
Defined.

(** ** X12 *)

(** X12: on a collection without objects [execute] makes one host call,
    the deselect-all before the loop.  When that call raises, [execute]
    raises the same and the host is as it was; otherwise [execute] returns
    [{'FINISHED'}], the earlier selection is cleared and nothing else in
    the host changes. *)
Theorem execute_empty_collection rt h :
  data_collections h !! collection_name = Some [] →
  execute rt h
  = match select_all_error rt DESELECT h with
    | Some e =>
        Result (Raised e) h [(snapshot (Op_select_all DESELECT) h, Some e)]
    | None =>
        Result (Returned (PySet {["FINISHED"]})) (set_selected ∅ h)
               [(snapshot (Op_select_all DESELECT) h, None)]
    end.
Proof.
  intros Hc. now rewrite (execute_found _ _ _ Hc).
Qed.

Lemma execute_empty_collection_witness :
  execute Posix.runtime Scenes.bare
  = Result (Returned (PySet {["FINISHED"]})) (set_selected ∅ Scenes.bare)
           [(snapshot (Op_select_all DESELECT) Scenes.bare, None)]
  ∧ execute Posix.edit_mode_runtime Scenes.bare
    = Result (Raised Posix.poll_failed) Scenes.bare
             [(snapshot (Op_select_all DESELECT) Scenes.bare,
               Some Posix.poll_failed)].
Proof.
  split.
  - apply (execute_empty_collection Posix.runtime Scenes.bare). reflexivity.
  - apply (execute_empty_collection Posix.edit_mode_runtime Scenes.bare).
    reflexivity.
Defined.

(** ** X13 *)

(** X13: when the collection exists and no host call raises, the host
    calls of [execute] are exactly: deselect all, then for each object in
    turn select it, make it active, deselect all, select it, bake, export,
    deselect it; that is one call and seven more per object. *)
Theorem execute_calls_exact rt h objs :
  data_collections h !! collection_name = Some objs →
  raised (res_trace (execute rt h)) = [] →
  calls_of (res_trace (execute rt h)) = expected_calls rt objs
  ∧ length (res_trace (execute rt h)) = 1 + 7 * length objs.
Proof.
  intros Hc Hno. apply raised_nil in Hno.
  destruct (well_raised_returns _ (well_raised_execute rt h) Hno) as [v Hv].
  assert (Hcalls : calls_of (res_trace (execute rt h)) = expected_calls rt objs).
  { rewrite (execute_found _ _ _ Hc) in Hv |- *.
    destruct (select_all_error rt DESELECT h) as [e0|]; [discriminate|].
    cbv zeta in *.
    cbn [res_outcome res_trace] in *. unfold expected_calls.
    change (calls_of ((snapshot (Op_select_all DESELECT) h, None)
                        :: res_trace (for_each objs (execute_body rt)
                                        (set_selected ∅ h))))
      with (Op_select_all DESELECT
              :: calls_of (res_trace (for_each objs (execute_body rt)
                                        (set_selected ∅ h)))).
    f_equal. apply loop_calls.
    destruct (res_outcome (for_each objs (execute_body rt) (set_selected ∅ h)))
      as [[]|e]; [done | discriminate]. }
  split; [done|].
  rewrite <- (length_fmap (λ p, ev_call p.1)). fold (calls_of (res_trace (execute rt h))).
  rewrite Hcalls. unfold expected_calls. cbn [length].
  assert (Hlen : length (o ← objs; body_calls rt o) = 7 * length objs).
  { clear. induction objs as [|o l IH]; [done|].
    change (o' ← o :: l; body_calls rt o')
      with (body_calls rt o ++ (o' ← l; body_calls rt o')).
    rewrite length_app, IH. cbn [body_calls length]. lia. }
  rewrite Hlen. lia.
Qed.

Lemma execute_calls_exact_witness :
  calls_of (res_trace (execute Posix.runtime Twins.scene))
  = expected_calls Posix.runtime [Twins.upper; Twins.lower]
  ∧ length (res_trace (execute Posix.runtime Twins.scene))
    = 1 + 7 * length [Twins.upper; Twins.lower].
Proof.
  apply (execute_calls_exact Posix.runtime Twins.scene
           [Twins.upper; Twins.lower]).
  - reflexivity.
  - vm_compute. reflexivity.
Defined.
